(** * SimpleDB: a shallow embedding of the B+Tree node codec, the tree
      engine and the page store, with the properties of its specification.

    Conventions of the embedding.
    - Go's fixed-width integers are [Z] with the wrap-around written out
      ([w16], [w64], [wint]).
    - A Go byte slice is a [slice]: the bytes visible through the slice
      header ([vis], of length [len]) followed by the spare capacity of its
      backing array ([hid]); [Nil] is the nil slice.
    - A function that can panic returns a [result]; [Panic] carries the
      message of the panic, [NoFuel] says that the bounded model of a loop or
      of a recursion through page pointers did not reach the end.
    - Code that mutates a node in place returns the mutated node. *)

From Stdlib Require Import ZArith Lia.
From Stdlib Require Import Strings.Byte.
From stdpp Require Import base option list strings gmap.

Open Scope Z_scope.

(** ** Results of code that may panic *)

Inductive result (A : Type) : Type :=
| Ok (a : A)
| Panic (msg : string)
| NoFuel.
Arguments Ok {A} a.
Arguments Panic {A} msg.
Arguments NoFuel {A}.

#[global] Instance result_ret : MRet result := fun _ a => Ok a.
#[global] Instance result_bind : MBind result := fun _ _ f r =>
  match r with
  | Ok a => f a
  | Panic msg => Panic msg
  | NoFuel => NoFuel
  end.

Definition is_ok {A} (r : result A) : bool :=
  match r with Ok _ => true | _ => false end.

(** ** Machine integers *)

Definition w16 (z : Z) : Z := z mod 65536.
Definition w64 (z : Z) : Z := z mod 18446744073709551616.
(** Go's [int] on a 64-bit platform. *)
Definition wint (z : Z) : Z :=
  (z + 9223372036854775808) mod 18446744073709551616 - 9223372036854775808.

(** ** Bytes and little-endian integers *)

Definition u8 (b : byte) : Z := Z.of_N (Byte.to_N b).
Definition b8 (z : Z) : byte := default x00 (Byte.of_N (Z.to_N (z mod 256))).

Fixpoint le_decode (bs : list byte) : Z :=
  match bs with
  | [] => 0
  | b :: bs' => u8 b + 256 * le_decode bs'
  end.

Fixpoint le_encode (n : nat) (v : Z) : list byte :=
  match n with
  | O => []
  | S n' => b8 v :: le_encode n' (v / 256)
  end.

Definition zeros (n : Z) : list byte := replicate (Z.to_nat n) x00.

(** [bytes.Compare]: lexicographic order on the byte values. *)
Fixpoint bytes_compare (a b : list byte) : comparison :=
  match a, b with
  | [], [] => Eq
  | [], _ :: _ => Lt
  | _ :: _, [] => Gt
  | x :: a', y :: b' =>
      match Z.compare (u8 x) (u8 y) with
      | Eq => bytes_compare a' b'
      | c => c
      end
  end.

(** [bytes.Equal]. *)
Definition bytes_equal (a b : list byte) : bool :=
  match bytes_compare a b with Eq => true | _ => false end.

(** ** Slices *)

Inductive slice : Type :=
| Nil
| Sl (v h : list byte).

Definition vis (s : slice) : list byte :=
  match s with Nil => [] | Sl v _ => v end.
Definition hid (s : slice) : list byte :=
  match s with Nil => [] | Sl _ h => h end.
Definition is_nil (s : slice) : bool :=
  match s with Nil => true | Sl _ _ => false end.

Definition full (s : slice) : list byte := vis s ++ hid s.
Definition len (s : slice) : Z := Z.of_nat (length (vis s)).
Definition cap (s : slice) : Z := Z.of_nat (length (full s)).

(** [make([]byte, n)]: length and capacity [n], all zero. *)
Definition make (n : Z) : slice := Sl (zeros n) [].

Definition oob {A} : result A :=
  Panic "runtime error: slice bounds out of range".
Definition ioob {A} : result A :=
  Panic "runtime error: index out of range".

(** [s[lo:]] *)
Definition slice_from (s : slice) (lo : Z) : result slice :=
  if bool_decide (0 <= lo <= len s)
  then Ok (match s with
           | Nil => Nil
           | Sl v h => Sl (drop (Z.to_nat lo) v) h
           end)
  else oob.

(** [s[lo:hi]]; the upper bound of a slice expression is the capacity. *)
Definition slice_range (s : slice) (lo hi : Z) : result slice :=
  if bool_decide (0 <= lo <= hi /\ hi <= cap s)
  then Ok (match s with
           | Nil => Nil
           | Sl _ _ =>
               Sl (take (Z.to_nat (hi - lo)) (drop (Z.to_nat lo) (full s)))
                  (drop (Z.to_nat hi) (full s))
           end)
  else oob.

(** [s[:hi]] *)
Definition slice_to (s : slice) (hi : Z) : result slice := slice_range s 0 hi.

(** Overwrite the backing array of [s] at [pos] with [bs]; the slice keeps
    its length.  The callers check the bounds. *)
Definition poke (s : slice) (pos : Z) (bs : list byte) : slice :=
  match s with
  | Nil => Nil
  | Sl v _ =>
      let f := full s in
      let p := Z.to_nat pos in
      let f' := take p f ++ bs ++ drop (p + length bs)%nat f in
      Sl (take (length v) f') (drop (length v) f')
  end.

(** [binary.LittleEndian.Uint16(b)] and [Uint64(b)]. *)
Definition Uint16 (b : slice) : result Z :=
  if bool_decide (2 <= len b) then Ok (le_decode (take 2 (vis b))) else ioob.
Definition Uint64 (b : slice) : result Z :=
  if bool_decide (8 <= len b) then Ok (le_decode (take 8 (vis b))) else ioob.

(** [binary.LittleEndian.PutUintN(s[pos:], v)] for N = 8 * n. *)
Definition put_at (n : nat) (s : slice) (pos : Z) (v : Z) : result slice :=
  if bool_decide (0 <= pos <= len s) then
    if bool_decide (Z.of_nat n <= len s - pos)
    then Ok (poke s pos (le_encode n v))
    else ioob
  else oob.

(** [binary.LittleEndian.PutUintN(s[lo:hi], v)]. *)
Definition put_range (n : nat) (s : slice) (lo hi : Z) (v : Z) : result slice :=
  if bool_decide (0 <= lo <= hi /\ hi <= cap s) then
    if bool_decide (Z.of_nat n <= hi - lo)
    then Ok (poke s lo (le_encode n v))
    else ioob
  else oob.

(** [binary.LittleEndian.AppendUintN(s[pos:], v)] with the result dropped:
    [append] writes behind the END of [s[pos:]], which is the end of [s];
    it reuses the backing array when the spare capacity suffices and
    allocates a fresh array otherwise.  The bytes visible through [s] never
    change. *)
Definition append_at (n : nat) (s : slice) (pos : Z) (v : Z) : result slice :=
  if bool_decide (0 <= pos <= len s) then
    if bool_decide (Z.of_nat n <= cap s - len s)
    then Ok (poke s (len s) (le_encode n v))
    else Ok s
  else oob.

(** [copy(s[pos:], src)]: copies [min(len(s) - pos, len(src))] bytes. *)
Definition copy_at (s : slice) (pos : Z) (src : list byte) : result slice :=
  if bool_decide (0 <= pos <= len s)
  then Ok (poke s pos (take (Z.to_nat (len s - pos)) src))
  else oob.

(** ** The node codec (btree/bnode.go) *)

Definition BNODE_NODE : Z := 1.
Definition BNODE_LEAF : Z := 2.
Definition HEADER : Z := 4.
Definition BTREE_PAGE_SIZE : Z := 4096.
Definition BTREE_MAX_KEY_SIZE : Z := 1000.
Definition BTREE_MAX_VAL_SIZE : Z := 3000.

Record BNode : Type := mkBNode { data : slice }.

Definition btype (node : BNode) : result Z := Uint16 (data node).

Definition nkeys (node : BNode) : result Z :=
  s ← slice_range (data node) 2 4; Uint16 s.

Definition setHeader (node : BNode) (bt nk : Z) : result BNode :=
  d ← put_range 2 (data node) 0 2 bt;
  d ← put_range 2 d 2 4 nk;
  Ok (mkBNode d).

Definition getPtr (node : BNode) (idx : Z) : result Z :=
  nk ← nkeys node;
  if bool_decide (idx >= nk) then
    Panic "getPtr: Index is greater than or equal to number of keys"
  else
    let pos := w16 (HEADER + 8 * idx) in
    s ← slice_from (data node) pos; Uint64 s.

Definition setPtr (node : BNode) (idx : Z) (val : Z) : result BNode :=
  nk ← nkeys node;
  if bool_decide (idx >= nk) then
    Panic "setPtr: Index is greater than or equal to number of keys"
  else
    let pos := w16 (HEADER + 8 * idx) in
    d ← append_at 8 (data node) pos val;
    Ok (mkBNode d).

Definition offsetPos (node : BNode) (idx : Z) : result Z :=
  nk ← nkeys node;
  if bool_decide (idx > nk) then
    Panic "offSetPos: idx is outside of valid offset range"
  else Ok (w16 (HEADER + 8 * nk + 2 * (idx - 1))).

Definition getOffSet (node : BNode) (idx : Z) : result Z :=
  if bool_decide (idx = 0) then Ok 0
  else
    pos ← offsetPos node idx;
    s ← slice_from (data node) pos; Uint16 s.

Definition setOffSet (node : BNode) (idx : Z) (offset : Z) : result BNode :=
  pos ← offsetPos node idx;
  d ← append_at 2 (data node) pos offset;
  Ok (mkBNode d).

Definition kvPos (node : BNode) (idx : Z) : result Z :=
  nk ← nkeys node;
  if bool_decide (idx > nk) then
    Panic "kvPos: idx out of range of keys"
  else
    off ← getOffSet node idx;
    Ok (w16 (HEADER + 8 * nk + 2 * nk + off)).

Definition getKey (node : BNode) (idx : Z) : result (list byte) :=
  nk ← nkeys node;
  if bool_decide (idx > nk) then
    Panic "getKey: idx out of range of keys"
  else
    pos ← kvPos node idx;
    s ← slice_from (data node) pos;
    klen ← Uint16 s;
    s ← slice_from (data node) (w16 (pos + 4));
    k ← slice_to s klen;
    Ok (vis k).

Definition getVal (node : BNode) (idx : Z) : result (list byte) :=
  nk ← nkeys node;
  if bool_decide (idx > nk) then
    Panic "getKey: idx out of range of keys"
  else
    pos ← kvPos node idx;
    s ← slice_from (data node) (w16 (pos + 0));
    klen ← Uint16 s;
    s ← slice_from (data node) (w16 (pos + 2));
    vlen ← Uint16 s;
    s ← slice_from (data node) (w16 (pos + 4 + klen));
    v ← slice_to s vlen;
    Ok (vis v).

Definition nbytes (node : BNode) : result Z :=
  nk ← nkeys node; kvPos node nk.

(** Loops over an index range, with the body threading the node built so
    far. *)
Fixpoint foldM {A B : Type} (f : B -> A -> result B) (b : B) (l : list A)
  : result B :=
  match l with
  | [] => Ok b
  | x :: l' => b' ← f b x; foldM f b' l'
  end.

(** The loop of [nodeLookupLE] over the indices [idxs], with its [break]. *)
Fixpoint lookupLE_from (node : BNode) (key : list byte) (idxs : list Z)
  (found : Z) : result Z :=
  match idxs with
  | [] => Ok found
  | i :: idxs' =>
      k ← getKey node i;
      let cmp := bytes_compare k key in
      let found' := match cmp with Gt => found | _ => i end in
      match cmp with
      | Lt => lookupLE_from node key idxs' found'
      | _ => Ok found'
      end
  end.

Definition nodeLookupLE (node : BNode) (key : list byte) : result Z :=
  nk ← nkeys node;
  lookupLE_from node key (seqZ 1 (nk - 1)) 0.

Definition nodeAppendRange (new old : BNode) (dstNew srcOld n : Z)
  : result BNode :=
  onk ← nkeys old;
  if bool_decide (w16 (srcOld + n) > onk) then
    Panic "problem with nodeAppendRange"
  else
  nnk ← nkeys new;
  if bool_decide (w16 (dstNew + n) > nnk) then
    Panic "problem with nodeAppendRange"
  else
  if bool_decide (n = 0) then Ok new
  else
    (* pointers *)
    new ← foldM (fun new i =>
                   p ← getPtr old (w16 (srcOld + i));
                   setPtr new (w16 (dstNew + i)) p)
                new (seqZ 0 n);
    (* offsets *)
    dstBegin ← getOffSet new dstNew;
    srcBegin ← getOffSet old srcOld;
    new ← foldM (fun new i =>
                   o ← getOffSet old (w16 (srcOld + i));
                   let offset := w16 (dstBegin + o - srcBegin) in
                   setOffSet new (w16 (dstNew + i)) offset)
                new (seqZ 1 n);
    (* with n = 65535 the uint16 counter of [i <= n] wraps and the loop
       starts over *)
    if bool_decide (n = 65535) then NoFuel
    else
    (* KVs *)
    begin ← kvPos old srcOld;
    end_ ← kvPos old (w16 (srcOld + n));
    dpos ← kvPos new dstNew;
    _ ← slice_from (data new) dpos;
    src ← slice_range (data old) begin end_;
    d ← copy_at (data new) dpos (vis src);
    Ok (mkBNode d).

Definition nodeAppendKV (new : BNode) (idx : Z) (ptr : Z)
  (key val : list byte) : result BNode :=
  (* ptrs *)
  new ← setPtr new idx ptr;
  (* KVs *)
  pos ← kvPos new idx;
  let klen := w16 (Z.of_nat (length key)) in
  let vlen := w16 (Z.of_nat (length val)) in
  d ← put_at 2 (data new) (w16 (pos + 0)) klen;
  d ← put_at 2 d (w16 (pos + 2)) vlen;
  d ← copy_at d (w16 (pos + 4)) key;
  d ← copy_at d (w16 (pos + 4 + klen)) val;
  let new := mkBNode d in
  (* the offset of the next key *)
  off ← getOffSet new idx;
  setOffSet new (w16 (idx + 1))
    (w16 (off + 4 + w16 (Z.of_nat (length key) + Z.of_nat (length val)))).

Definition leafInsert (new old : BNode) (idx : Z) (key val : list byte)
  : result BNode :=
  onk ← nkeys old;
  new ← setHeader new BNODE_LEAF (w16 (onk + 1));
  new ← nodeAppendRange new old 0 0 idx;
  new ← nodeAppendKV new idx 0 key val;
  onk ← nkeys old;
  nodeAppendRange new old (w16 (idx + 1)) idx (w16 (onk - idx)).

Definition leafUpdate (new old : BNode) (idx : Z) (key val : list byte)
  : result BNode :=
  onk ← nkeys old;
  new ← setHeader new BNODE_LEAF onk;
  new ← nodeAppendRange new old 0 0 idx;
  new ← nodeAppendKV new idx 0 key val;
  onk ← nkeys old;
  nodeAppendRange new old (w16 (idx + 1)) (w16 (idx + 1)) (w16 (onk - idx - 1)).

Definition leafDelete (new old : BNode) (idx : Z) : result BNode :=
  onk ← nkeys old;
  new ← setHeader new BNODE_LEAF (w16 (onk - 1));
  new ← nodeAppendRange new old 0 0 idx;
  onk ← nkeys old;
  nodeAppendRange new old idx (w16 (idx + 1)) (w16 (onk - idx + 1)).

(** The loop of [splitSingleNode] that chooses the split index; [cur] is
    [curBytes] before the iteration. *)
Fixpoint split_idx (old : BNode) (totalBytes : Z) (idxs : list Z) (cur : Z)
  : result Z :=
  match idxs with
  | [] => Ok 0
  | i :: idxs' =>
      oldPos ← kvPos old i;
      s ← slice_from (data old) oldPos;
      keyLen ← Uint16 s;
      s ← slice_from (data old) (w16 (oldPos + 2));
      valLen ← Uint16 s;
      (* 8 for pointer, 2 for offset, 2 for klen, 2 for vlen *)
      let cur' := wint (cur + (8 + 2 + 2 + 2 + keyLen + valLen)) in
      if bool_decide (w16 (totalBytes - w16 cur') <= BTREE_PAGE_SIZE - 4)
      then Ok i
      else split_idx old totalBytes idxs' cur'
  end.

Definition splitSingleNode (left right old : BNode)
  : result (BNode * BNode) :=
  nk ← nkeys old;
  totalBytes ← nbytes old;
  idx ← split_idx old totalBytes (seqZ 0 nk) 0;
  bt ← btype old;
  left ← setHeader left bt idx;
  bt ← btype old;
  right ← setHeader right bt (w16 (nk - idx));
  left ← nodeAppendRange left old 0 0 idx;
  right ← nodeAppendRange right old 0 idx (w16 (nk - idx));
  Ok (left, right).

(** [splitNode] returns [nsplit] and an array of three nodes of which the
    first [nsplit] are used; the model returns those [nsplit] nodes. *)
Definition splitNode (old : BNode) : result (list BNode) :=
  nb ← nbytes old;
  if bool_decide (nb <= BTREE_PAGE_SIZE) then
    d ← slice_to (data old) BTREE_PAGE_SIZE;
    Ok [mkBNode d]
  else
    let left := mkBNode (make (2 * BTREE_PAGE_SIZE)) in
    let right := mkBNode (make BTREE_PAGE_SIZE) in
    '(left, right) ← splitSingleNode left right old;
    lb ← nbytes left;
    if bool_decide (lb <= BTREE_PAGE_SIZE) then
      d ← slice_to (data left) BTREE_PAGE_SIZE;
      Ok [mkBNode d; right]
    else
      let leftleft := mkBNode (make BTREE_PAGE_SIZE) in
      let middle := mkBNode (make BTREE_PAGE_SIZE) in
      '(leftleft, middle) ← splitSingleNode leftleft middle left;
      llb ← nbytes leftleft;
      if bool_decide (llb > BTREE_PAGE_SIZE) then
        Panic "leftleft page size is still larger than page size"
      else Ok [leftleft; middle; right].

Definition nodeMerge (new left right : BNode) : result BNode :=
  bt ← btype left;
  lnk ← nkeys left;
  rnk ← nkeys right;
  new ← setHeader new bt (w16 (lnk + rnk));
  lnk ← nkeys left;
  new ← nodeAppendRange new left 0 0 lnk;
  lnk ← nkeys left;
  rnk ← nkeys right;
  nodeAppendRange new right lnk 0 rnk.

(** ** The B+Tree engine *)

Section BTree.
(** The state behind the three callbacks of the tree: the page store. *)
Context {S : Type}.

Record BTree : Type := mkBTree {
  root : Z;                                (* pointer to a page on disk *)
  get : Z -> S -> result BNode;            (* dereferencing a pointer *)
  new : BNode -> S -> result (Z * S);      (* allocate a new page *)
  del : Z -> S -> result S                 (* deallocate a page *)
}.

Definition set_root (tree : BTree) (r : Z) : BTree :=
  mkBTree r (get tree) (new tree) (del tree).

(** [nodeReplace2Kid] is called by [nodeDelete]; its definition is not
    among the files of the repository that this development covers, and
    the engine takes it as a parameter. *)
Variable nodeReplace2Kid :
  BNode -> BNode -> Z -> Z -> list byte -> result BNode.

(** The [range kids] loop of [nodeReplaceKidN]; [i] is the loop index. *)
Fixpoint replace_kids (tree : BTree) (new_ : BNode) (idx : Z) (i : Z)
  (kids : list BNode) (s : S) : result (BNode * S) :=
  match kids with
  | [] => Ok (new_, s)
  | node :: kids' =>
      '(ptr, s) ← new tree node s;
      k ← getKey node 0;
      new_ ← nodeAppendKV new_ (w16 (idx + w16 i)) ptr k [];
      replace_kids tree new_ idx (i + 1) kids' s
  end.

(** replace a link with multiple links *)
Definition nodeReplaceKidN (tree : BTree) (new_ old : BNode) (idx : Z)
  (kids : list BNode) (s : S) : result (BNode * S) :=
  let inc := w16 (Z.of_nat (length kids)) in
  onk ← nkeys old;
  new_ ← setHeader new_ BNODE_NODE (w16 (onk + inc - 1));
  new_ ← nodeAppendRange new_ old 0 0 idx;
  '(new_, s) ← replace_kids tree new_ idx 0 kids s;
  onk ← nkeys old;
  new_ ← nodeAppendRange new_ old (w16 (idx + inc)) (w16 (idx + 1))
           (w16 (onk - idx + 1));
  Ok (new_, s).

(** KV insertion to an internal node; [rec] is the recursive call of
    [treeInsert]. *)
Definition nodeInsert
  (rec : BTree -> BNode -> list byte -> list byte -> S -> result (BNode * S))
  (tree : BTree) (new_ node : BNode) (idx : Z) (key val : list byte) (s : S)
  : result (BNode * S) :=
  (* get and deallocate the kid node *)
  kptr ← getPtr node idx;
  knode ← get tree kptr s;
  s ← del tree kptr s;
  (* recursive insertion to the kid node *)
  '(knode, s) ← rec tree knode key val s;
  (* split the result *)
  splited ← splitNode knode;
  (* update the kid links *)
  nodeReplaceKidN tree new_ node idx splited s.

Fixpoint treeInsert (fuel : nat) (tree : BTree) (node : BNode)
  (key val : list byte) (s : S) : result (BNode * S) :=
  match fuel with
  | O => NoFuel
  | Datatypes.S fuel' =>
      let new_ := mkBNode (make (2 * BTREE_PAGE_SIZE)) in
      idx ← nodeLookupLE node key;
      bt ← btype node;
      if bool_decide (bt = BNODE_LEAF) then
        k ← getKey node idx;
        if bytes_equal key k then
          new_ ← leafUpdate new_ node idx key val; Ok (new_, s)
        else
          new_ ← leafInsert new_ node (w16 (idx + 1)) key val; Ok (new_, s)
      else if bool_decide (bt = BNODE_NODE) then
        nodeInsert (treeInsert fuel') tree new_ node idx key val s
      else Panic "bad node!"
  end.

(** The [range splitted[:nsplit]] loop of [Insert] that fills the new
    root. *)
Fixpoint root_kids (tree : BTree) (root_ : BNode) (i : Z)
  (kids : list BNode) (s : S) : result (BNode * S) :=
  match kids with
  | [] => Ok (root_, s)
  | knode :: kids' =>
      '(ptr, s) ← new tree knode s;
      k ← getKey knode 0;
      root_ ← nodeAppendKV root_ (w16 i) ptr k [];
      root_kids tree root_ (i + 1) kids' s
  end.

Definition Insert (fuel : nat) (tree : BTree) (key val : list byte) (s : S)
  : result (BTree * S) :=
  if bool_decide (length key = 0%nat) then Panic "Insert: key is of size 0"
  else if bool_decide (Z.of_nat (length key) > BTREE_MAX_KEY_SIZE) then
    Panic "Insert: key is larger than max key size"
  else if bool_decide (Z.of_nat (length val) > BTREE_MAX_VAL_SIZE) then
    Panic "Insert: val is larger than max val size"
  else if bool_decide (root tree = 0) then
    (* create first node *)
    let root_ := mkBNode (make BTREE_PAGE_SIZE) in
    root_ ← setHeader root_ BNODE_LEAF 2;
    (* a dummy key, this makes the tree cover the whole key space *)
    root_ ← nodeAppendKV root_ 0 0 [] [];
    root_ ← nodeAppendKV root_ 1 0 key val;
    '(ptr, s) ← new tree root_ s;
    Ok (set_root tree ptr, s)
  else
    node ← get tree (root tree) s;
    s ← del tree (root tree) s;
    '(node, s) ← treeInsert fuel tree node key val s;
    splitted ← splitNode node;
    let nsplit := Z.of_nat (length splitted) in
    if bool_decide (nsplit > 1) then
      (* the root split, add a new level *)
      let root_ := mkBNode (make BTREE_PAGE_SIZE) in
      root_ ← setHeader root_ BNODE_NODE nsplit;
      '(root_, s) ← root_kids tree root_ 0 splitted s;
      '(ptr, s) ← new tree root_ s;
      Ok (set_root tree ptr, s)
    else
      match splitted with
      | n0 :: _ => '(ptr, s) ← new tree n0 s; Ok (set_root tree ptr, s)
      | [] => ioob
      end.

(** conditions for merging a node *)
Definition shouldMerge (tree : BTree) (node : BNode) (idx : Z)
  (updated : BNode) (s : S) : result (Z * BNode) :=
  ub ← nbytes updated;
  if bool_decide (ub > BTREE_PAGE_SIZE / 4) then Ok (0, mkBNode Nil)
  else
    left ←
      (if bool_decide (idx > 0) then
         p ← getPtr node (w16 (idx - 1));
         sibling ← get tree p s;
         sb ← nbytes sibling;
         ub ← nbytes updated;
         let merged := w16 (sb + ub - HEADER) in
         if bool_decide (merged <= BTREE_PAGE_SIZE)
         then Ok (Some sibling) else Ok None
       else Ok None);
    match left with
    | Some sibling => Ok (-1, sibling)
    | None =>
        nk ← nkeys node;
        right ←
          (if bool_decide (w16 (idx + 1) < nk) then
             p ← getPtr node (w16 (idx + 1));
             sibling ← get tree p s;
             sb ← nbytes sibling;
             ub ← nbytes updated;
             let merged := w16 (sb + ub - HEADER) in
             if bool_decide (merged <= BTREE_PAGE_SIZE)
             then Ok (Some sibling) else Ok None
           else Ok None);
        match right with
        | Some sibling => Ok (1, sibling)
        | None => Ok (0, mkBNode Nil)
        end
    end.

(** [rec] is the recursive call of [treeDelete]. *)
Definition nodeDelete
  (rec : BTree -> BNode -> list byte -> S -> result (BNode * S))
  (tree : BTree) (node : BNode) (idx : Z) (key : list byte) (s : S)
  : result (BNode * S) :=
  (* recurse into the child *)
  kptr ← getPtr node idx;
  knode ← get tree kptr s;
  '(updated, s) ← rec tree knode key s;
  if bool_decide (len (data updated) = 0) then
    Ok (mkBNode Nil, s) (* not found *)
  else
    s ← del tree kptr s;
    let new_ := mkBNode (make BTREE_PAGE_SIZE) in
    (* check for merging *)
    '(mergeDir, sibling) ← shouldMerge tree node idx updated s;
    if bool_decide (mergeDir < 0) then (* left *)
      let merged := mkBNode (make BTREE_PAGE_SIZE) in
      merged ← nodeMerge merged sibling updated;
      p ← getPtr node (w16 (idx - 1));
      s ← del tree p s;
      '(ptr, s) ← new tree merged s;
      k ← getKey merged 0;
      new_ ← nodeReplace2Kid new_ node (w16 (idx - 1)) ptr k;
      Ok (new_, s)
    else if bool_decide (mergeDir > 0) then (* right *)
      let merged := mkBNode (make BTREE_PAGE_SIZE) in
      merged ← nodeMerge merged updated sibling;
      p ← getPtr node (w16 (idx + 1));
      s ← del tree p s;
      '(ptr, s) ← new tree merged s;
      k ← getKey merged 0;
      new_ ← nodeReplace2Kid new_ node idx ptr k;
      Ok (new_, s)
    else
      unk ← nkeys updated;
      if bool_decide (unk <= 0) then
        Panic "Number of keys in updated node is 0 or lower"
      else nodeReplaceKidN tree new_ node idx [updated] s.

Fixpoint treeDelete (fuel : nat) (tree : BTree) (node : BNode)
  (key : list byte) (s : S) : result (BNode * S) :=
  match fuel with
  | O => NoFuel
  | Datatypes.S fuel' =>
      (* find key *)
      idx ← nodeLookupLE node key;
      bt ← btype node;
      if bool_decide (bt = BNODE_LEAF) then
        k ← getKey node idx;
        if negb (bytes_equal key k) then Ok (mkBNode Nil, s)
        else
          (* delete the key in the leaf *)
          let new_ := mkBNode (make BTREE_PAGE_SIZE) in
          new_ ← leafDelete new_ node idx;
          Ok (new_, s)
      else if bool_decide (bt = BNODE_NODE) then
        nodeDelete (treeDelete fuel') tree node idx key s
      else Panic "bad node!"
  end.

Definition Delete (fuel : nat) (tree : BTree) (key : list byte) (s : S)
  : result (bool * BTree * S) :=
  if bool_decide (length key = 0%nat) then Panic "Delete: key is of size 0"
  else if bool_decide (Z.of_nat (length key) > BTREE_MAX_KEY_SIZE) then
    Panic "Delete: key is larger than max key size"
  else if bool_decide (root tree = 0) then Ok (false, tree, s)
  else
    node ← get tree (root tree) s;
    '(updated, s) ← treeDelete fuel tree node key s;
    if bool_decide (len (data updated) = 0) then Ok (false, tree, s)
    else
      s ← del tree (root tree) s;
      bt ← btype updated;
      one ← (if bool_decide (bt = BNODE_NODE)
             then nk ← nkeys updated; Ok (bool_decide (nk = 1))
             else Ok false);
      if (one : bool) then
        (* remove a level *)
        p ← getPtr updated 0;
        Ok (true, set_root tree p, s)
      else
        '(ptr, s) ← new tree updated s;
        Ok (true, set_root tree ptr, s).

(** Modelled from the spec: [BTree.Get], which the storage layer calls
    and whose definition is not among the files of the repository that
    this development covers.  "Standard descent
    using lookup_le at each internal node; at the leaf, report found iff
    the key at the returned index equals the search key exactly"; an
    empty tree holds no key, and an empty or oversized key is a
    programmer error. *)
Fixpoint treeGet (fuel : nat) (tree : BTree) (node : BNode)
  (key : list byte) (s : S) : result (list byte * bool) :=
  match fuel with
  | O => NoFuel
  | Datatypes.S fuel' =>
      idx ← nodeLookupLE node key;
      bt ← btype node;
      if bool_decide (bt = BNODE_LEAF) then
        k ← getKey node idx;
        if bytes_equal key k
        then v ← getVal node idx; Ok (v, true)
        else Ok ([], false)
      else if bool_decide (bt = BNODE_NODE) then
        kptr ← getPtr node idx;
        knode ← get tree kptr s;
        treeGet fuel' tree knode key s
      else Panic "bad node!"
  end.

(** Modelled from the spec: the entry point of [BTree.Get], see
    [treeGet]. *)
Definition Get (fuel : nat) (tree : BTree) (key : list byte) (s : S)
  : result (list byte * bool) :=
  if bool_decide (length key = 0%nat) then Panic "Get: key is of size 0"
  else if bool_decide (Z.of_nat (length key) > BTREE_MAX_KEY_SIZE) then
    Panic "Get: key is larger than max key size"
  else if bool_decide (root tree = 0) then Ok ([], false)
  else
    node ← get tree (root tree) s;
    treeGet fuel tree node key s.

End BTree.

Arguments BTree S : clear implicits.

(** ** The free-list node format (database/key_value_freelist.go) *)

Definition BNODE_FREE_LIST : Z := 3.
Definition FREE_LIST_HEADER : Z := 4 + 8 + 8.
Definition FREE_LIST_CAP : Z := (BTREE_PAGE_SIZE - FREE_LIST_HEADER) `quot` 8.

Definition flnSize (node : BNode) : result Z :=
  if is_nil (data node) then Ok 0
  else s ← slice_from (data node) 16; Uint16 s.

Definition flnNext (node : BNode) : result Z :=
  if is_nil (data node) then Ok 0
  else s ← slice_from (data node) 96; Uint64 s.

Definition flnPtr (node : BNode) (idx : Z) : result Z :=
  if is_nil (data node) then Ok 0
  else
    let headOffset := FREE_LIST_HEADER * 8 in
    let ptrOffset := headOffset + idx * 8 in
    s ← slice_from (data node) ptrOffset; Uint64 s.

Definition flnSetPtr (node : BNode) (idx : Z) (ptr : Z) : result BNode :=
  let headOffset := FREE_LIST_HEADER * 8 in
  let ptrOffset := headOffset + idx * 8 in
  d ← put_at 8 (data node) ptrOffset ptr;
  Ok (mkBNode d).

Definition flnSetHeader (node : BNode) (size : Z) (next : Z) : result BNode :=
  d ← put_at 2 (data node) 16 size; (* set size *)
  d ← put_at 8 d 96 next;           (* set next *)
  Ok (mkBNode d).

Definition flnSetTotal (node : BNode) (total : Z) : result BNode :=
  d ← put_at 8 (data node) 32 total;
  Ok (mkBNode d).

(** ** The page store (package database) *)

Definition DB_SIG : list byte := String.list_byte_of_string "TreeVaultDB".

(** A Go [error] value: [None] is [nil]. *)
Definition error : Type := option string.

(** The outcome of the system calls of one commit, in the order of the
    call sites: [Fallocate], [Mmap], the first [Sync], [WriteAt] and the
    second [Sync]; [true] is success. *)
Record syscalls : Type := mkSyscalls {
  sys_fallocate : bool;
  sys_mmap : bool;
  sys_sync1 : bool;
  sys_write : bool;
  sys_sync2 : bool
}.

Definition all_succeed : syscalls := mkSyscalls true true true true true.

(** The fields of [KeyValue] that the code at hand reads and writes.  The
    chunks are shared mappings of the file, so that the bytes of the file
    are the bytes of the chunks; a chunk has the length of its mapping and
    no spare capacity.  [page_updates = None] is the nil map. *)
Record KeyValue : Type := mkKeyValue {
  tree_root : Z;                        (* db.tree.root *)
  free_head : Z;                        (* db.free.head *)
  mmap_file : Z;                        (* file size *)
  mmap_total : Z;                       (* mmap size *)
  mmap_chunks : list (list byte);       (* multiple mmaps *)
  page_flushed : Z;                     (* database size in number of pages *)
  page_nfree : Z;                       (* pages taken from the free list *)
  page_nappend : Z;                     (* pages to be appended *)
  page_updates : option (gmap Z slice)  (* nil value: a deallocated page *)
}.

Definition set_tree_root (db : KeyValue) (r : Z) : KeyValue :=
  mkKeyValue r (free_head db) (mmap_file db) (mmap_total db) (mmap_chunks db)
    (page_flushed db) (page_nfree db) (page_nappend db) (page_updates db).
Definition set_free_head (db : KeyValue) (h : Z) : KeyValue :=
  mkKeyValue (tree_root db) h (mmap_file db) (mmap_total db) (mmap_chunks db)
    (page_flushed db) (page_nfree db) (page_nappend db) (page_updates db).
Definition set_mmap_file (db : KeyValue) (f : Z) : KeyValue :=
  mkKeyValue (tree_root db) (free_head db) f (mmap_total db) (mmap_chunks db)
    (page_flushed db) (page_nfree db) (page_nappend db) (page_updates db).
Definition set_mmap (db : KeyValue) (t : Z) (cs : list (list byte))
  : KeyValue :=
  mkKeyValue (tree_root db) (free_head db) (mmap_file db) t cs
    (page_flushed db) (page_nfree db) (page_nappend db) (page_updates db).
Definition set_page_flushed (db : KeyValue) (f : Z) : KeyValue :=
  mkKeyValue (tree_root db) (free_head db) (mmap_file db) (mmap_total db)
    (mmap_chunks db) f (page_nfree db) (page_nappend db) (page_updates db).
Definition set_page_nfree (db : KeyValue) (n : Z) : KeyValue :=
  mkKeyValue (tree_root db) (free_head db) (mmap_file db) (mmap_total db)
    (mmap_chunks db) (page_flushed db) n (page_nappend db) (page_updates db).
Definition set_page_nappend (db : KeyValue) (n : Z) : KeyValue :=
  mkKeyValue (tree_root db) (free_head db) (mmap_file db) (mmap_total db)
    (mmap_chunks db) (page_flushed db) (page_nfree db) n (page_updates db).
Definition set_page_updates (db : KeyValue) (u : option (gmap Z slice))
  : KeyValue :=
  mkKeyValue (tree_root db) (free_head db) (mmap_file db) (mmap_total db)
    (mmap_chunks db) (page_flushed db) (page_nfree db) (page_nappend db) u.

(** [db.page.updates[ptr] = page]: assignment to an entry of a nil map
    panics. *)
Definition updates_store (db : KeyValue) (ptr : Z) (page : slice)
  : result KeyValue :=
  match page_updates db with
  | None => Panic "assignment to entry in nil map"
  | Some m => Ok (set_page_updates db (Some (<[ptr := page]> m)))
  end.

(** [page, ok := db.page.updates[ptr]]: a nil map reads as an empty one. *)
Definition updates_lookup (db : KeyValue) (ptr : Z) : option slice :=
  match page_updates db with
  | None => None
  | Some m => m !! ptr
  end.

(** The walk of [pageGetMapped] over the chunks: the index of the chunk
    that covers [ptr] and the byte offset of the page in it. *)
Fixpoint chunk_walk (chunks : list (list byte)) (i : nat) (start ptr : Z)
  : option (nat * Z) :=
  match chunks with
  | [] => None
  | chunk :: chunks' =>
      let end_ := w64 (start + Z.of_nat (length chunk) / BTREE_PAGE_SIZE) in
      if bool_decide (ptr < end_)
      then Some (i, w64 (BTREE_PAGE_SIZE * (ptr - start)))
      else chunk_walk chunks' (Datatypes.S i) end_ ptr
  end.

Definition pageGetMapped (db : KeyValue) (ptr : Z) : result BNode :=
  match chunk_walk (mmap_chunks db) 0 0 ptr with
  | Some (i, offset) =>
      match mmap_chunks db !! i with
      | Some chunk =>
          d ← slice_range (Sl chunk []) offset (w64 (offset + BTREE_PAGE_SIZE));
          Ok (mkBNode d)
      | None => ioob
      end
  | None => Panic "pageGetMapped: bad ptr"
  end.

(** callback for BTree, dereference a pointer *)
Definition pageGet (ptr : Z) (db : KeyValue) : result BNode :=
  match updates_lookup db ptr with
  | Some page =>
      if is_nil page then Panic "pageGet: page is nil"
      else Ok (mkBNode page) (* for new pages *)
  | None => pageGetMapped db ptr (* for written pages *)
  end.

(** A write through the node that [pageGet] returns reaches the page the
    node aliases: the staged slice in [updates], or the bytes of the
    mapping.  [f] is the write, on the slice that [pageGet] returns. *)
Definition pageWrite (ptr : Z) (f : BNode -> result BNode) (db : KeyValue)
  : result KeyValue :=
  match updates_lookup db ptr with
  | Some page =>
      if is_nil page then Panic "pageGet: page is nil"
      else
        node ← f (mkBNode page);
        updates_store db ptr (data node)
  | None =>
      match chunk_walk (mmap_chunks db) 0 0 ptr with
      | Some (i, offset) =>
          match mmap_chunks db !! i with
          | Some chunk =>
              d ← slice_range (Sl chunk []) offset
                    (w64 (offset + BTREE_PAGE_SIZE));
              node ← f (mkBNode d);
              let chunk' := take (Z.to_nat offset) chunk ++ full (data node) in
              Ok (set_mmap db (mmap_total db) (<[i := chunk']> (mmap_chunks db)))
          | None => ioob
          end
      | None => Panic "pageGetMapped: bad ptr"
      end
  end.

(** callback for Btree, deallocate a page *)
Definition pageDel (ptr : Z) (db : KeyValue) : result KeyValue :=
  updates_store db ptr Nil.

(** callback for FreeList, allocate a new page *)
Definition pageAppend (node : BNode) (db : KeyValue) : result (Z * KeyValue) :=
  if bool_decide (len (data node) > BTREE_PAGE_SIZE) then
    Panic "pageAppend: node is larger than BTREE_PAGE_SIZE"
  else
    let ptr := w64 (page_flushed db + w64 (page_nappend db)) in
    let db := set_page_nappend db (wint (page_nappend db + 1)) in
    db ← updates_store db ptr (data node);
    Ok (ptr, db).

(** callback for FreeList, reuse a page *)
Definition pageUse (ptr : Z) (node : BNode) (db : KeyValue) : result KeyValue :=
  updates_store db ptr (data node).

(** *** The free list operations.  [Open] binds the callbacks of
    [db.free] to [pageGet], [pageAppend] and [pageUse], and [fl.head] is
    the field [free_head] of the store. *)

(** number of items in the list *)
Definition FreeList_Total (db : KeyValue) : result Z :=
  if bool_decide (free_head db = 0) then Ok 0
  else
    page ← pageGet (free_head db) db;
    s ← slice_from (data page) 32;
    v ← Uint64 s;
    Ok (wint v).

(** The loop of [FreeList.Get]; the list is followed through page
    pointers, hence the fuel. *)
Fixpoint get_walk (fuel : nat) (db : KeyValue) (node : BNode) (topn : Z)
  : result Z :=
  match fuel with
  | O => NoFuel
  | Datatypes.S fuel' =>
      sz ← flnSize node;
      if bool_decide (sz <= topn) then
        let topn := topn - sz in
        next ← flnNext node;
        if bool_decide (next = 0) then Panic "Get: next is 0"
        else
          node ← pageGet next db;
          get_walk fuel' db node topn
      else
        flnPtr node (sz - topn - 1)
  end.

(** get the nth pointer *)
Definition FreeList_Get (fuel : nat) (db : KeyValue) (topn : Z) : result Z :=
  total ← FreeList_Total db;
  if bool_decide (topn < 0 \/ topn >= total) then
    Panic "Get: topn index is out of scope"
  else
    node ← pageGet (free_head db) db;
    get_walk fuel db node topn.

(** The loop of [flPush]; every round takes at least one pointer off
    [freed], which bounds the rounds by [n]. *)
Fixpoint push_loop (n : nat) (db : KeyValue) (freed reuse : list Z)
  : result (KeyValue * list Z) :=
  match freed, n with
  | [], _ => Ok (db, reuse)
  | _ :: _, O => NoFuel
  | _ :: _, Datatypes.S n' =>
      let new_ := mkBNode (make BTREE_PAGE_SIZE) in
      (* construct a new node *)
      let size := Z.of_nat (length freed) in
      let size := if bool_decide (size > FREE_LIST_CAP)
                  then FREE_LIST_CAP else size in
      new_ ← flnSetHeader new_ (w16 size) (free_head db);
      new_ ← foldM (fun node '(i, ptr) => flnSetPtr node i ptr) new_
               (zip (seqZ 0 size) (take (Z.to_nat size) freed));
      let freed := drop (Z.to_nat size) freed in
      match reuse with
      | r :: reuse' =>
          (* reuse a pointer from the list *)
          let db := set_free_head db r in
          db ← pageUse r new_ db;
          push_loop n' db freed reuse'
      | [] =>
          (* or append a page to house the new node *)
          '(ptr, db) ← pageAppend new_ db;
          push_loop n' (set_free_head db ptr) freed reuse
      end
  end.

Definition flPush (db : KeyValue) (freed reuse : list Z) : result KeyValue :=
  '(db, reuse) ← push_loop (length freed) db freed reuse;
  if bool_decide (length reuse ≠ 0%nat) then
    Panic "flPush: all pages not reused from the list"
  else Ok db.

(** Phase 2 of [Update], first loop: [remain] counts down while pointers of
    the node are taken for reuse; [nfreed] is [len(freed)]. *)
Fixpoint reuse_loop (remain : nat) (node : BNode) (reuse : list Z) (nfreed : Z)
  : result (nat * list Z) :=
  match remain with
  | O => Ok (O, reuse)
  | Datatypes.S remain' =>
      if bool_decide (Z.of_nat (length reuse) * FREE_LIST_CAP
                      < nfreed + Z.of_nat remain)
      then
        p ← flnPtr node (Z.of_nat remain');
        reuse_loop remain' node (reuse ++ [p]) nfreed
      else Ok (remain, reuse)
  end.

(** The main loop of [Update]; it follows the list through page pointers,
    hence the fuel. *)
Fixpoint update_loop (fuel : nat) (db : KeyValue) (popn total : Z)
  (freed reuse : list Z) : result (KeyValue * Z * list Z * list Z) :=
  if bool_decide (free_head db ≠ 0 /\
                  Z.of_nat (length reuse) * FREE_LIST_CAP
                  < Z.of_nat (length freed))
  then
    match fuel with
    | O => NoFuel
    | Datatypes.S fuel' =>
        node ← pageGet (free_head db) db;
        let freed := freed ++ [free_head db] in (* recycle the node itself *)
        sz ← flnSize node;
        '(popn, freed, reuse) ←
          (if bool_decide (popn >= sz) then
             (* phase 1: remove all pointers in this node *)
             Ok (popn - sz, freed, reuse)
           else
             (* phase 2: remove some pointers *)
             let remain := sz - popn in
             (* reuse pointers from the free list itself *)
             '(remain, reuse) ←
               reuse_loop (Z.to_nat remain) node reuse
                 (Z.of_nat (length freed));
             (* move the node into the freed list *)
             freed ← foldM (fun freed i => p ← flnPtr node i; Ok (freed ++ [p]))
                       freed (seqZ 0 (Z.of_nat remain));
             Ok (0, freed, reuse));
        (* discard the node and move to the next node *)
        let total := total - sz in
        next ← flnNext node;
        update_loop fuel' (set_free_head db next) popn total freed reuse
    end
  else Ok (db, total, freed, reuse).

(** remove 'popn' pointers and add some new pointers *)
Definition FreeList_Update (fuel : nat) (db : KeyValue) (popn : Z)
  (freed : list Z) : result KeyValue :=
  total ← FreeList_Total db;
  if bool_decide (popn > total) then
    Panic "Update: popn is larger than the total number of items"
  else if bool_decide (popn = 0 /\ length freed = 0%nat) then Ok db
  else
    (* prepare to construct the new list *)
    total ← FreeList_Total db;
    '(db, total, freed, reuse) ← update_loop fuel db popn total freed [];
    if bool_decide (Z.of_nat (length reuse) * FREE_LIST_CAP
                    < Z.of_nat (length freed) /\ free_head db ≠ 0)
    then Panic "Update: invalid state"
    else
      (* phase 3: prepend new nodes *)
      db ← flPush db freed reuse;
      (* done *)
      pageWrite (free_head db)
        (fun node => flnSetTotal node (w64 (total + Z.of_nat (length freed))))
        db.

(** *** The callbacks of the tree and the public interface *)

(** callback for Btree, allocate a new page *)
Definition pageNew (fuel : nat) (node : BNode) (db : KeyValue)
  : result (Z * KeyValue) :=
  if bool_decide (len (data node) > BTREE_PAGE_SIZE) then
    Panic "pageNew: node is larger than page size"
  else
    total ← FreeList_Total db;
    '(ptr, db) ←
      (if bool_decide (page_nfree db < total) then
         (* reuse a deallocated page *)
         ptr ← FreeList_Get fuel db (page_nfree db);
         Ok (ptr, set_page_nfree db (wint (page_nfree db + 1)))
       else
         (* append a new page *)
         let ptr := w64 (page_flushed db + w64 (page_nappend db)) in
         Ok (ptr, set_page_nappend db (wint (page_nappend db + 1))));
    db ← updates_store db ptr (data node);
    Ok (ptr, db).

(** [db.tree] with the callbacks that [Open] binds. *)
Definition db_tree (fuel : nat) (db : KeyValue) : BTree KeyValue :=
  mkBTree (tree_root db) pageGet (pageNew fuel) pageDel.

(** *** Persistence (database/key_value_persist.go) *)

(** The master page format: | sig 16B | btree_root 8B | page_used 8B | *)
Definition masterLoad (db : KeyValue) : result (KeyValue * error) :=
  if bool_decide (mmap_file db = 0) then
    (* empty file, the master page will be created on the first write *)
    Ok (set_page_flushed db 1, None) (* reserved for the master page *)
  else
    match mmap_chunks db with
    | [] => ioob
    | chunk :: _ =>
        let data_ := Sl chunk [] in
        s ← slice_from data_ 16;
        root_ ← Uint64 s;
        s ← slice_from data_ 24;
        used ← Uint64 s;
        (* verify the page *)
        sig ← slice_to data_ 16;
        if negb (bytes_equal DB_SIG (vis sig)) then
          Ok (db, Some "bad Signature")
        else
          let bad :=
            negb (bool_decide (1 <= used /\
                   used <= w64 (mmap_file db `quot` BTREE_PAGE_SIZE))) in
          let bad := bad || negb (bool_decide (root_ < used)) in
          if bad then Ok (db, Some "bad master page")
          else Ok (set_page_flushed (set_tree_root db root_) used, None)
    end.

(** The 32 bytes that [masterStore] writes at offset 0 of the file. *)
Definition master_bytes (db : KeyValue) : list byte :=
  DB_SIG ++ zeros (16 - Z.of_nat (length DB_SIG))
    ++ le_encode 8 (tree_root db) ++ le_encode 8 (page_flushed db).

(** update the master page: a positional write to the file, which the
    shared mapping of the first chunk shows. *)
Definition masterStore (sys : syscalls) (db : KeyValue) : KeyValue * error :=
  if sys_write sys then
    match mmap_chunks db with
    | chunk :: chunks =>
        let n := length (master_bytes db) in
        let chunk' := take (length chunk) (master_bytes db) ++ drop n chunk in
        (set_mmap db (mmap_total db) (chunk' :: chunks), None)
    | [] => (db, None)
    end
  else (db, Some "write master page").

(** The loop of [extendFile]: the file size is increased exponentially. *)
Fixpoint grow_pages (fuel : nat) (filePages npages : Z) : Z :=
  match fuel with
  | O => filePages
  | Datatypes.S fuel' =>
      if bool_decide (filePages < npages) then
        let inc := filePages `quot` 8 in
        let inc := if bool_decide (inc < 1) then 1 else inc in
        grow_pages fuel' (wint (filePages + inc)) npages
      else filePages
  end.

(** extend the file to at least npages *)
Definition extendFile (sys : syscalls) (db : KeyValue) (npages : Z)
  : KeyValue * error :=
  let filePages := mmap_file db `quot` BTREE_PAGE_SIZE in
  if bool_decide (filePages >= npages) then (db, None)
  else
    let filePages := grow_pages (Z.to_nat (npages - filePages)) filePages npages in
    let fileSize := wint (filePages * BTREE_PAGE_SIZE) in
    if sys_fallocate sys then (set_mmap_file db fileSize, None)
    else (db, Some "fallocate").

(** extend the mmap by adding new mappings; the new chunk maps the part of
    the file behind the present mappings, which no write has reached. *)
Definition extendMmap (sys : syscalls) (db : KeyValue) (npages : Z)
  : KeyValue * error :=
  if bool_decide (mmap_total db >= wint (npages * BTREE_PAGE_SIZE)) then
    (db, None)
  else if sys_mmap sys then
    let chunk := zeros (mmap_total db) in
    (set_mmap db (wint (mmap_total db + mmap_total db))
       (mmap_chunks db ++ [chunk]), None)
  else (db, Some "mmap").

(** The pairs of the map in the order in which [range] visits them; Go
    leaves that order open, the model visits the keys in the order of
    [map_to_list]. *)
Definition updates_range (db : KeyValue) : list (Z * slice) :=
  match page_updates db with
  | None => []
  | Some m => map_to_list m
  end.

(** [copy(pageGetMapped(db, ptr).data, page)] *)
Definition copy_to_mapped (db : KeyValue) (ptr : Z) (page : slice)
  : result KeyValue :=
  match chunk_walk (mmap_chunks db) 0 0 ptr with
  | Some (i, offset) =>
      match mmap_chunks db !! i with
      | Some chunk =>
          d ← slice_range (Sl chunk []) offset (w64 (offset + BTREE_PAGE_SIZE));
          d ← copy_at d 0 (vis page);
          let chunk' := take (Z.to_nat offset) chunk ++ full d in
          Ok (set_mmap db (mmap_total db) (<[i := chunk']> (mmap_chunks db)))
      | None => ioob
      end
  | None => Panic "pageGetMapped: bad ptr"
  end.

Definition writePages (fuel : nat) (sys : syscalls) (db : KeyValue)
  : result (KeyValue * error) :=
  (* update the free list *)
  let freed := (filter (fun p => is_nil p.2 = true) (updates_range db)).*1 in
  db ← FreeList_Update fuel db (page_nfree db) freed;
  (* extend the file and mmap if needed *)
  let npages := wint (wint (page_flushed db) + page_nappend db) in
  let '(db, err) := extendFile sys db npages in
  if bool_decide (err ≠ None) then Ok (db, err)
  else
  let '(db, err) := extendMmap sys db npages in
  if bool_decide (err ≠ None) then Ok (db, err)
  else
    (* copy data to the file *)
    db ← foldM (fun db '(ptr, page) =>
                  if is_nil page then Ok db else copy_to_mapped db ptr page)
           db (updates_range db);
    Ok (db, None).

Definition syncPages (sys : syscalls) (db : KeyValue) : KeyValue * error :=
  (* flush data to the disk. must be done before updating the master page *)
  if negb (sys_sync1 sys) then (db, Some "fsync")
  else
    let db := set_page_flushed db
                (w64 (page_flushed db + w64 (page_nappend db))) in
    let db := set_page_updates db (Some ∅) in
    (* update & flush the master page *)
    let '(db, err) := masterStore sys db in
    if bool_decide (err ≠ None) then (db, err)
    else if negb (sys_sync2 sys) then (db, Some "fsync")
    else (db, None).

(** persist the newly allocated pages after updates *)
Definition flushPages (fuel : nat) (sys : syscalls) (db : KeyValue)
  : result (KeyValue * error) :=
  '(db, err) ← writePages fuel sys db;
  if bool_decide (err ≠ None) then Ok (db, err)
  else Ok (syncPages sys db).

(** read the db *)
Definition KV_Get (fuel : nat) (key : list byte) (db : KeyValue)
  : result (list byte * bool) :=
  Get fuel (db_tree fuel db) key db.

(** update the db *)
Definition KV_Set (fuel : nat) (sys : syscalls) (key val : list byte)
  (db : KeyValue) : result (KeyValue * error) :=
  '(tree, db) ← Insert fuel (db_tree fuel db) key val db;
  flushPages fuel sys (set_tree_root db (root tree)).

Section Del.
(** See [nodeDelete]. *)
Variable nodeReplace2Kid :
  BNode -> BNode -> Z -> Z -> list byte -> result BNode.

(** delete from the db *)
Definition KV_Del (fuel : nat) (sys : syscalls) (key : list byte)
  (db : KeyValue) : result (bool * KeyValue * error) :=
  '(deleted, tree, db) ←
    Delete nodeReplace2Kid fuel (db_tree fuel db) key db;
  '(db, err) ← flushPages fuel sys (set_tree_root db (root tree));
  Ok (deleted, db, err).
End Del.

(** ** Inputs: nodes written in the documented layout *)

(** The layout that the comment of [BNode] documents: type, nkeys, the
    pointers, the offsets of the ends of the entries, and the entries as
    klen, vlen, key, val.  It serves to write down well-formed nodes. *)
Definition entry : Type := Z * list byte * list byte.

Definition kv_bytes (e : entry) : list byte :=
  let '(_, key, val) := e in
  le_encode 2 (Z.of_nat (length key)) ++ le_encode 2 (Z.of_nat (length val))
    ++ key ++ val.

Fixpoint offsets_from (acc : Z) (es : list entry) : list byte :=
  match es with
  | [] => []
  | e :: es' =>
      let acc' := acc + Z.of_nat (length (kv_bytes e)) in
      le_encode 2 acc' ++ offsets_from acc' es'
  end.

Definition encode_node (bt : Z) (es : list entry) : list byte :=
  le_encode 2 bt ++ le_encode 2 (Z.of_nat (length es))
    ++ concat (map (fun e : entry => le_encode 8 e.1.1) es)
    ++ offsets_from 0 es
    ++ concat (map kv_bytes es).

(** The node of the given entries in a zeroed buffer of [size] bytes. *)
Definition node_of (bt : Z) (es : list entry) (size : Z) : BNode :=
  let bs := encode_node bt es in
  mkBNode (Sl (bs ++ zeros (size - Z.of_nat (length bs))) []).

(** The entries that a node shows through its accessors. *)
Definition entry_at (node : BNode) (i : Z) : result entry :=
  p ← getPtr node i;
  k ← getKey node i;
  v ← getVal node i;
  Ok (p, k, v).

Definition entries (node : BNode) : result (list entry) :=
  nk ← nkeys node;
  foldM (fun acc i => e ← entry_at node i; Ok (acc ++ [e])) [] (seqZ 0 nk).

Definition str (s : string) : list byte := String.list_byte_of_string s.

(** The test container of the tree (newContainer): pages in memory, keyed
    by a pointer; the model numbers the pages where the source takes the
    address of the buffer. *)
Definition container : Type := gmap Z BNode * Z.

Definition container_get (ptr : Z) (c : container) : result BNode :=
  match c.1 !! ptr with
  | Some node => Ok node
  | None => Panic "could not find page"
  end.

Definition container_new (node : BNode) (c : container)
  : result (Z * container) :=
  nb ← nbytes node;
  if bool_decide (nb > BTREE_PAGE_SIZE) then
    Panic "node does not fit within page"
  else
    let key := c.2 in
    match c.1 !! key with
    | Some _ => Panic "the page has data in it"
    | None => Ok (key, (<[key := node]> c.1, key + 1))
    end.

Definition container_del (ptr : Z) (c : container) : result container :=
  match c.1 !! ptr with
  | None => Panic "page does not exist"
  | Some _ => Ok (delete ptr c.1, c.2)
  end.

Definition container_tree (r : Z) : BTree container :=
  mkBTree r container_get container_new container_del.

(** *** Concrete nodes *)

(** A leaf with the sentinel and the entry a -> 1. *)
Definition leaf_a1 : BNode :=
  node_of BNODE_LEAF [(0, [], []); (0, str "a", str "1")] BTREE_PAGE_SIZE.

(** An internal node with two children, pages 10 and 11. *)
Definition inner2 : BNode :=
  node_of BNODE_NODE [(10, [], []); (11, str "m", [])] BTREE_PAGE_SIZE.

(** Two entries of the largest allowed size. *)
Definition big_k0 : list byte := replicate 1000 (b8 97).
Definition big_v0 : list byte := replicate 3000 (b8 120).
Definition big_k1 : list byte := replicate 1000 (b8 98).
Definition big_v1 : list byte := replicate 3000 (b8 121).

Definition two_big : BNode :=
  node_of BNODE_LEAF [(0, big_k0, big_v0); (0, big_k1, big_v1)]
    (2 * BTREE_PAGE_SIZE).

(** A free-list node written in the layout that the comments of
    key_value_freelist.go document: type at 0, size 2 at 2, total 5 at 4,
    next 9 at 12 and the pointers 7 and 8 from 20 on. *)
Definition documented_fl : BNode :=
  mkBNode (Sl (le_encode 2 BNODE_FREE_LIST ++ le_encode 2 2 ++ le_encode 8 5
               ++ le_encode 8 9 ++ le_encode 8 7 ++ le_encode 8 8
               ++ zeros (BTREE_PAGE_SIZE - 36)) []).

(** The same node written by the code. *)
Definition written_fl : result BNode :=
  node ← flnSetHeader (mkBNode (make BTREE_PAGE_SIZE)) 2 9;
  node ← flnSetTotal node 5;
  node ← flnSetPtr node 0 7;
  flnSetPtr node 1 8.

(** The bytes of [node] at [off], [n] of them. *)
Definition bytes_at (node : BNode) (off : Z) (n : nat) : list byte :=
  take n (drop (Z.to_nat off) (vis (data node))).

(** *** Concrete stores *)

(** The store that [Open] makes of a new, empty file: nothing flushed but
    the reserved master page, no tree, no free list, and the [updates] map
    not allocated.  [mmapInit] maps 64 MiB; the store here maps [npages]
    pages, which is all that the commits of the scenarios reach. *)
Definition opened_empty (npages : Z) : KeyValue :=
  mkKeyValue 0 0 0 (npages * BTREE_PAGE_SIZE)
    [zeros (npages * BTREE_PAGE_SIZE)] 1 0 0 None.

(** A store of a two-page file whose master page [masterStore] has
    written: root 1, two pages flushed. *)
Definition stored_master : KeyValue :=
  (masterStore all_succeed
     (mkKeyValue 1 0 (2 * BTREE_PAGE_SIZE) (2 * BTREE_PAGE_SIZE)
        [zeros (2 * BTREE_PAGE_SIZE)] 2 0 0 (Some ∅))).1.

(** A store in the middle of a mutation: page 2 staged, one page appended,
    one page taken from the free list. *)
Definition staged_store : KeyValue :=
  mkKeyValue 1 0 (4 * BTREE_PAGE_SIZE) (4 * BTREE_PAGE_SIZE)
    [zeros (4 * BTREE_PAGE_SIZE)] 2 1 1
    (Some {[ 2 := data leaf_a1 ]}).

(** A store in which page 1 has been deallocated by [pageDel]. *)
Definition freed_store : KeyValue :=
  mkKeyValue 1 0 (4 * BTREE_PAGE_SIZE) (4 * BTREE_PAGE_SIZE)
    [zeros (4 * BTREE_PAGE_SIZE)] 2 0 0 (Some {[ 1 := Nil ]}).

(** A store with two mappings of two pages each; the second page of the
    second mapping, page 3 of the file, holds [leaf_a1]. *)
Definition two_chunks : KeyValue :=
  mkKeyValue 1 0 (4 * BTREE_PAGE_SIZE) (4 * BTREE_PAGE_SIZE)
    [zeros (2 * BTREE_PAGE_SIZE); zeros BTREE_PAGE_SIZE ++ vis (data leaf_a1)]
    4 0 0 (Some ∅).

(** *** Programs against the public interface *)

Inductive op : Type :=
| OpSet (key val : list byte)
| OpDel (key : list byte)
| OpGet (key : list byte).

Inductive out : Type :=
| OutSet (err : error)
| OutDel (deleted : bool) (err : error)
| OutGet (val : list byte) (found : bool).

Section Run.
Variable nodeReplace2Kid :
  BNode -> BNode -> Z -> Z -> list byte -> result BNode.

(** Runs the calls in turn, all system calls succeeding, and collects
    what they return. *)
Fixpoint run (fuel : nat) (ops : list op) (db : KeyValue)
  : result (list out * KeyValue) :=
  match ops with
  | [] => Ok ([], db)
  | OpSet key val :: ops' =>
      '(db, err) ← KV_Set fuel all_succeed key val db;
      '(outs, db) ← run fuel ops' db;
      Ok (OutSet err :: outs, db)
  | OpDel key :: ops' =>
      '(deleted, db, err) ← KV_Del nodeReplace2Kid fuel all_succeed key db;
      '(outs, db) ← run fuel ops' db;
      Ok (OutDel deleted err :: outs, db)
  | OpGet key :: ops' =>
      '(val, found) ← KV_Get fuel key db;
      '(outs, db) ← run fuel ops' db;
      Ok (OutGet val found :: outs, db)
  end.
End Run.

Definition long_key : list byte := replicate 1000 (b8 75).
Definition long_val : list byte := replicate 3000 (b8 86).

(** A delete of an absent key, seven sets of alternating short keys, a set
    of an entry of the largest allowed size, and a read of it. *)
Definition eight_sets : list op :=
  [ OpDel (str "x");
    OpSet (str "a") (str "1"); OpSet (str "b") (str "2");
    OpSet (str "a") (str "3"); OpSet (str "b") (str "4");
    OpSet (str "a") (str "5"); OpSet (str "b") (str "6");
    OpSet (str "a") (str "7");
    OpSet long_key long_val;
    OpGet long_key ].

(** *** The tree as a lookup sees it *)

Section Misses.
Context {S : Type}.
Variable get_ : Z -> S -> result BNode.
Variable s : S.
Variable key : list byte.

(** The descent for [key] from [node] ends, after at most [h] nodes, in a
    leaf whose slot for [key] holds another key. *)
Inductive misses : nat -> BNode -> Prop :=
| misses_leaf h node idx k :
    nodeLookupLE node key = Ok idx ->
    btype node = Ok BNODE_LEAF ->
    getKey node idx = Ok k ->
    bytes_equal key k = false ->
    misses (Datatypes.S h) node
| misses_node h node idx kptr knode :
    nodeLookupLE node key = Ok idx ->
    btype node = Ok BNODE_NODE ->
    getPtr node idx = Ok kptr ->
    get_ kptr s = Ok knode ->
    misses h knode ->
    misses (Datatypes.S h) node.

(** [key] is not present in the tree of root [r]. *)
Definition absent (r : Z) (h : nat) : Prop :=
  r = 0 \/ exists node, get_ r s = Ok node /\ misses h node.
End Misses.

(** *** Mappings *)

(** The pages and the bytes of a sequence of chunks. *)
Definition pages_of (chunks : list (list byte)) : Z :=
  foldr (fun chunk acc => Z.of_nat (length chunk) / BTREE_PAGE_SIZE + acc)
    0 chunks.
Definition mapped_bytes (chunks : list (list byte)) : Z :=
  foldr (fun chunk acc => Z.of_nat (length chunk) + acc) 0 chunks.

(** [chunk], between [pre] and [post], is the chunk whose pages cover the
    page [ptr]; the mappings together stay within the range of [int]. *)
Definition covers (chunks : list (list byte)) (ptr : Z)
  (pre : list (list byte)) (chunk : list byte) (post : list (list byte))
  : Prop :=
  chunks = pre ++ chunk :: post /\
  mapped_bytes chunks < 2 ^ 63 /\
  pages_of pre <= ptr
    < pages_of pre + Z.of_nat (length chunk) / BTREE_PAGE_SIZE.

(** The view of the page at byte offset [off] of [chunk]: the page, with
    the rest of the mapping as its capacity. *)
Definition page_view (chunk : list byte) (off : Z) : BNode :=
  mkBNode (Sl (take (Z.to_nat BTREE_PAGE_SIZE) (drop (Z.to_nat off) chunk))
              (drop (Z.to_nat (off + BTREE_PAGE_SIZE)) chunk)).

(** The dispatch of [pageGet] as the specification words it: the staged
    bytes when [ptr] is in [updates] with non-empty bytes, and otherwise the
    view of the mapped page. *)
Definition pageGet_as_specified (db : KeyValue) (ptr : Z) : Prop :=
  match updates_lookup db ptr with
  | Some page =>
      if bool_decide (0 < len page)
      then pageGet ptr db = Ok (mkBNode page)
      else pageGet ptr db = pageGetMapped db ptr
  | None => pageGet ptr db = pageGetMapped db ptr
  end.

(** *** A tree of two levels in the test container *)

Definition leaf_m1 : BNode :=
  node_of BNODE_LEAF [(0, str "m", str "1")] BTREE_PAGE_SIZE.

(** The root [inner2] at page 7, its children at the pages 10 and 11. *)
Definition two_level : container :=
  ({[ 7 := inner2; 10 := leaf_a1; 11 := leaf_m1 ]}, 12).

Definition no_nodeReplace2Kid
  : BNode -> BNode -> Z -> Z -> list byte -> result BNode :=
  fun _ _ _ _ _ => Panic "nodeReplace2Kid".

(** * Properties *)

(** ** Basic facts *)

Lemma bind_inv {A B} (r : result A) (f : A -> result B) (b : B) :
  r ≫= f = Ok b -> exists a, r = Ok a /\ f a = Ok b.
Proof. destruct r; simpl; intros H; try discriminate. eauto. Qed.

Lemma u8_range (b : byte) : 0 <= u8 b < 256.
Proof.
  unfold u8. pose proof (Byte.to_N_bounded b). lia.
Qed.

Lemma le_decode_range (bs : list byte) :
  0 <= le_decode bs < 256 ^ Z.of_nat (length bs).
Proof.
  induction bs as [|b bs IH]; simpl le_decode; simpl length.
  - simpl. lia.
  - rewrite Nat2Z.inj_succ, Z.pow_succ_r by lia.
    pose proof (u8_range b). lia.
Qed.

Lemma Uint16_range (s : slice) (v : Z) : Uint16 s = Ok v -> 0 <= v < 65536.
Proof.
  unfold Uint16. case_bool_decide; [|discriminate].
  intros [= <-].
  pose proof (le_decode_range (take 2 (vis s))) as Hr.
  assert (length (take 2 (vis s)) <= 2)%nat by (rewrite length_take; lia).
  assert (256 ^ Z.of_nat (length (take 2 (vis s))) <= 256 ^ 2)
    by (apply Z.pow_le_mono_r; lia).
  lia.
Qed.

Lemma nkeys_range (node : BNode) (nk : Z) :
  nkeys node = Ok nk -> 0 <= nk < 65536.
Proof.
  unfold nkeys. intros H. apply bind_inv in H as (s & _ & H).
  eauto using Uint16_range.
Qed.

Lemma w16_add (a b : Z) : w16 (w16 a + w16 b) = w16 (a + b).
Proof. unfold w16. now rewrite <- Zplus_mod. Qed.

Lemma w16_small (a : Z) : 0 <= a < 65536 -> w16 a = a.
Proof. unfold w16. intros. now apply Z.mod_small. Qed.

(** [nodeAppendRange] refuses a range that ends behind the last key of the
    source. *)
Lemma nodeAppendRange_overrun (new_ old : BNode) (dstNew srcOld n nk : Z) :
  nkeys old = Ok nk ->
  w16 (srcOld + n) > nk ->
  nodeAppendRange new_ old dstNew srcOld n
  = Panic "problem with nodeAppendRange".
Proof.
  intros Hnk Hgt. unfold nodeAppendRange. rewrite Hnk. simpl.
  now rewrite bool_decide_true.
Qed.

(** The range of the trailing copy in [leafDelete] and [nodeReplaceKidN]
    ends two slots behind the last key. *)
Lemma trailing_range_overrun (idx nk : Z) :
  0 <= nk <= 65533 ->
  w16 (w16 (idx + 1) + w16 (nk - idx + 1)) > nk.
Proof.
  intros Hnk. rewrite w16_add.
  replace (idx + 1 + (nk - idx + 1)) with (nk + 2) by lia.
  rewrite w16_small; lia.
Qed.

(** [leafDelete] never returns normally. *)
Lemma leafDelete_not_ok (new_ old : BNode) (idx nk : Z) :
  nkeys old = Ok nk -> nk <= 65533 ->
  is_ok (leafDelete new_ old idx) = false.
Proof.
  intros Hnk Hle. pose proof (nkeys_range _ _ Hnk).
  unfold leafDelete. rewrite Hnk. simpl.
  destruct (setHeader _ _ _) as [n1| |]; simpl; try reflexivity.
  destruct (nodeAppendRange n1 old 0 0 idx) as [n2| |]; simpl; try reflexivity.
  rewrite (nodeAppendRange_overrun _ _ _ _ _ nk); auto.
  apply trailing_range_overrun. lia.
Qed.

Section TreeFacts.
Context {S : Type}.

(** [nodeReplaceKidN] never returns normally. *)
Lemma nodeReplaceKidN_not_ok (tree : BTree S) (new_ old : BNode)
  (idx nk : Z) (kids : list BNode) (s : S) :
  nkeys old = Ok nk -> nk <= 65533 ->
  is_ok (nodeReplaceKidN tree new_ old idx kids s) = false.
Proof.
  intros Hnk Hle. pose proof (nkeys_range _ _ Hnk).
  unfold nodeReplaceKidN. rewrite Hnk. simpl.
  destruct (setHeader _ _ _) as [n1| |]; simpl; try reflexivity.
  destruct (nodeAppendRange n1 old 0 0 idx) as [n2| |]; simpl;
    try reflexivity.
  destruct (replace_kids tree n2 idx 0 kids s) as [[n3 s']| |]; simpl;
    try reflexivity.
  rewrite (nodeAppendRange_overrun _ _ _ _ _ nk); auto.
  apply trailing_range_overrun. lia.
Qed.
End TreeFacts.

(** ** The node codec *)

(** The writes of [setPtr] and [setOffSet] go through
    [binary.LittleEndian.AppendUintN], which appends behind the end of the
    slice it is given: no byte that the node shows changes. *)
Lemma poke_at_len_vis (s : slice) (bs : list byte) :
  vis (poke s (len s) bs) = vis s.
Proof.
  destruct s as [|v h]; [reflexivity|].
  unfold poke, len, full. simpl vis. rewrite Nat2Z.id.
  rewrite take_app_length. rewrite take_app_length. reflexivity.
Qed.

Lemma append_at_vis (n : nat) (s s' : slice) (pos v : Z) :
  append_at n s pos v = Ok s' -> vis s' = vis s.
Proof.
  unfold append_at. repeat case_bool_decide; intros [= <-]; auto.
  apply poke_at_len_vis.
Qed.

Lemma setPtr_vis (node node' : BNode) (idx val : Z) :
  setPtr node idx val = Ok node' -> vis (data node') = vis (data node).
Proof.
  unfold setPtr. intros H.
  apply bind_inv in H as (nk & _ & H).
  case_bool_decide; [discriminate|].
  apply bind_inv in H as (d & Hd & [= <-]). simpl.
  eauto using append_at_vis.
Qed.

Lemma setOffSet_vis (node node' : BNode) (idx offset : Z) :
  setOffSet node idx offset = Ok node' -> vis (data node') = vis (data node).
Proof.
  unfold setOffSet. intros H.
  apply bind_inv in H as (pos & _ & H).
  apply bind_inv in H as (d & Hd & [= <-]). simpl.
  eauto using append_at_vis.
Qed.

(** The inputs are well formed: the accessors show the entries they were
    written from. *)
Lemma inputs_well_formed :
  entries leaf_a1 = Ok [(0, [], []); (0, str "a", str "1")] /\
  entries inner2 = Ok [(10, [], []); (11, str "m", [])] /\
  entries two_big = Ok [(0, big_k0, big_v0); (0, big_k1, big_v1)].
Proof. vm_compute. auto. Qed.

(** C2 (code_bug).  Claimed: [nodeReplaceKidN] rebuilds an internal node
    with [old.nkeys + k - 1] entries.  The code: on the internal node
    [inner2] of two keys, for child slot 0 and one replacement child, the
    call panics in its trailing [nodeAppendRange], which is asked for
    [old.nkeys - idx + 1] slots from slot [idx + 1]. *)
Theorem nodeReplaceKidN_panics :
  nkeys inner2 = Ok 2 /\
  nodeReplaceKidN (container_tree 0) (mkBNode (make (2 * BTREE_PAGE_SIZE)))
    inner2 0 [leaf_a1] (∅, 100)
  = Panic "problem with nodeAppendRange".
Proof. vm_compute. auto. Qed.

(** C3 (code_bug).  Claimed: [leafDelete] produces the leaf without slot
    [idx].  The code: on the leaf [leaf_a1] of two keys and the index 1
    the call panics in its second [nodeAppendRange], which is asked for
    [old.nkeys - idx + 1] slots from slot [idx + 1]. *)
Theorem leafDelete_panics :
  nkeys leaf_a1 = Ok 2 /\
  leafDelete (mkBNode (make BTREE_PAGE_SIZE)) leaf_a1 1
  = Panic "problem with nodeAppendRange".
Proof. vm_compute. auto. Qed.

(** C4 (code_bug).  Claimed: after [nodeAppendKV(dst, i, ptr, key, val)]
    the pointer of slot [i] is [ptr] and the offset of slot [i + 1] is the
    offset of slot [i] plus [4 + |key| + |val|].  The code: in a fresh leaf
    of two keys, after [nodeAppendKV(dst, 0, 5, "k", "v")] the key and the
    value read back, but the pointer of slot 0 is still 0 (not 5) and the
    offset of slot 1 is still 0 (not 6). *)
Theorem nodeAppendKV_drops_ptr_and_offset :
  (dst ← setHeader (mkBNode (make BTREE_PAGE_SIZE)) BNODE_LEAF 2;
   dst ← nodeAppendKV dst 0 5 (str "k") (str "v");
   p ← getPtr dst 0;
   o0 ← getOffSet dst 0;
   o1 ← getOffSet dst 1;
   k ← getKey dst 0;
   v ← getVal dst 0;
   Ok (p, o0, o1, k, v))
  = Ok (0, 0, 0, str "k", str "v").
Proof. vm_compute. reflexivity. Qed.

(** C5 (code_bug).  Claimed: the right node of [splitSingleNode] holds the
    entries of [old] from the split index on and has [nbytes <= P].  The
    code: [two_big] holds two entries of 4014 bytes each in 8032 bytes; the
    split index is 0, so that the right node is to hold both entries, which
    do not fit a page; the right node comes back with two slots that both
    read the first entry, and reports 24 bytes, because no offset is ever
    written. *)
Theorem splitSingleNode_right_loses_entries :
  nbytes two_big = Ok 8032 /\
  split_idx two_big 8032 (seqZ 0 2) 0 = Ok 0 /\
  ('(l, r) ← splitSingleNode (mkBNode (make (2 * BTREE_PAGE_SIZE)))
               (mkBNode (make BTREE_PAGE_SIZE)) two_big;
   lnk ← nkeys l;
   rnk ← nkeys r;
   rnb ← nbytes r;
   res ← entries r;
   Ok (lnk, rnk, rnb, res))
  = Ok (0, 2, 24, [(0, big_k0, big_v0); (0, big_k0, big_v0)]) /\
  Z.of_nat (length (encode_node BNODE_LEAF
                      [(0, big_k0, big_v0); (0, big_k1, big_v1)]))
  > BTREE_PAGE_SIZE.
Proof. vm_compute. auto. Qed.

(** ** The page store *)

(** C6 (code_bug).  Claimed: after a successful commit [flushed] has grown
    by [nappend], [updates] is empty, and [nappend] and [nfree] are zero.
    The code: [syncPages] adds [nappend] to [flushed] and replaces
    [updates] by an empty map, and leaves [nappend] and [nfree] as they
    were, in every store; in [staged_store] both are still 1 after the
    commit. *)
Theorem syncPages_keeps_nappend_and_nfree :
  (forall db : KeyValue,
     (syncPages all_succeed db).2 = None /\
     page_flushed (syncPages all_succeed db).1
     = w64 (page_flushed db + w64 (page_nappend db)) /\
     page_updates (syncPages all_succeed db).1 = Some ∅ /\
     page_nappend (syncPages all_succeed db).1 = page_nappend db /\
     page_nfree (syncPages all_succeed db).1 = page_nfree db) /\
  page_flushed (syncPages all_succeed staged_store).1 = 3 /\
  page_nappend (syncPages all_succeed staged_store).1 = 1 /\
  page_nfree (syncPages all_succeed staged_store).1 = 1.
Proof.
  split.
  - intros db. unfold syncPages, masterStore. simpl.
    destruct (mmap_chunks db); simpl; auto.
  - vm_compute. auto.
Qed.

(** C7 (code_bug).  Claimed: the accessors of a free-list node use the
    documented layout, size at byte 2, total at 4, next at 12 and pointer
    [i] at [20 + 8 i].  The code: in [documented_fl], which holds size 2,
    next 9 and the pointers 7 and 8 at those places, [flnSize], [flnNext]
    and [flnPtr] read 0; and the node that the setters write holds size,
    total, next and the pointers at the bytes 16, 32, 96, 160 and 168, with
    the documented places of size, total and pointer 0 left zero. *)
Theorem fln_accessors_miss_documented_layout :
  flnSize documented_fl = Ok 0 /\
  flnNext documented_fl = Ok 0 /\
  flnPtr documented_fl 0 = Ok 0 /\
  flnPtr documented_fl 1 = Ok 0 /\
  (node ← written_fl;
   Ok (bytes_at node 2 2, bytes_at node 4 8, bytes_at node 20 8))
  = Ok (zeros 2, zeros 8, zeros 8) /\
  (node ← written_fl;
   Ok (bytes_at node 16 2, bytes_at node 32 8, bytes_at node 96 8,
       bytes_at node 160 8, bytes_at node 168 8))
  = Ok (le_encode 2 2, le_encode 8 5, le_encode 8 9,
        le_encode 8 7, le_encode 8 8).
Proof. vm_compute. repeat split; reflexivity. Qed.

Lemma bytes_compare_Eq_length (a b : list byte) :
  bytes_compare a b = Eq -> length a = length b.
Proof.
  revert b. induction a as [|x a IH]; intros [|y b]; simpl; try discriminate.
  - reflexivity.
  - destruct (u8 x ?= u8 y); try discriminate. intros H. f_equal. auto.
Qed.

Lemma slice_range_length (s s' : slice) (lo hi : Z) :
  slice_range s lo hi = Ok s' -> len s' = hi - lo \/ s = Nil.
Proof.
  unfold slice_range. case_bool_decide as Hb; [|discriminate].
  intros [= <-]. destruct s as [|v h]; [auto|left].
  unfold len, cap in *. simpl vis.
  rewrite length_take, length_drop. lia.
Qed.

(** [masterLoad] compares the 11 bytes of [DB_SIG] with the 16 bytes of the
    signature field: it accepts no file but the empty one. *)
Lemma masterLoad_accepts_only_empty_file (db db' : KeyValue) :
  masterLoad db = Ok (db', None) -> mmap_file db = 0.
Proof.
  unfold masterLoad. case_bool_decide as Hfile; [auto|].
  destruct (mmap_chunks db) as [|chunk chunks]; [discriminate|].
  intros H.
  apply bind_inv in H as (s1 & _ & H).
  apply bind_inv in H as (root_ & _ & H).
  apply bind_inv in H as (s2 & _ & H).
  apply bind_inv in H as (used & _ & H).
  apply bind_inv in H as (sig & Hsig & H).
  destruct (bytes_equal DB_SIG (vis sig)) eqn:Heq; simpl in H;
    [|discriminate].
  exfalso. unfold bytes_equal in Heq.
  destruct (bytes_compare DB_SIG (vis sig)) eqn:Hc; try discriminate.
  apply bytes_compare_Eq_length in Hc.
  apply slice_range_length in Hsig as [Hl|?]; [|discriminate].
  unfold len in Hl. rewrite <- Hc in Hl. vm_compute in Hl. discriminate.
Qed.

(** C8 (code_bug).  Claimed: [masterLoad] fails exactly on a bad
    signature, a [flushed] out of range or a root not below [flushed].
    The code: the two-page file of [stored_master] starts with the master
    page that [masterStore] writes, the signature padded to 16 bytes, root
    1 and flushed 2, all in range; [masterLoad] answers "bad Signature" and
    sets nothing. *)
Theorem masterLoad_rejects_stored_master :
  mmap_file stored_master = 2 * BTREE_PAGE_SIZE /\
  (take 32 <$> head (mmap_chunks stored_master))
  = Some (DB_SIG ++ zeros 5 ++ le_encode 8 1 ++ le_encode 8 2) /\
  masterLoad stored_master = Ok (stored_master, Some "bad Signature").
Proof. vm_compute. auto. Qed.

(** C1 (code_bug).  Claimed: after [Set(k, v)] returns successfully,
    [Get(k)] returns [(v, true)].  The code, with [Get] as the
    specification describes it: in a new store, after seven sets of short
    keys, the set of an entry with a 1000-byte key and a 3000-byte value
    returns no error, and the read of that key returns a value whose last
    two bytes are zero. *)
Theorem set_get_round_trip_fails
  (nodeReplace2Kid : BNode -> BNode -> Z -> Z -> list byte -> result BNode) :
  (r ← run nodeReplace2Kid 4 eight_sets (opened_empty 64); Ok r.1)
  = Ok [ OutDel false None;
         OutSet None; OutSet None; OutSet None; OutSet None;
         OutSet None; OutSet None; OutSet None; OutSet None;
         OutGet (replicate 2998 (b8 86) ++ [x00; x00]) true ] /\
  replicate 2998 (b8 86) ++ [x00; x00] ≠ long_val.
Proof.
  split.
  - vm_compute. reflexivity.
  - intros H. apply (f_equal (fun l : list byte => l !! 2999%nat)) in H.
    vm_compute in H. discriminate.
Qed.

(** ** Deleting a key that is not there *)

Section DeleteMiss.
Context {S : Type}.
Variable nodeReplace2Kid :
  BNode -> BNode -> Z -> Z -> list byte -> result BNode.

(** The walk of [treeDelete] for a key that the descent misses returns
    the empty node and the store as it was. *)
Lemma treeDelete_miss (tree : BTree S) (s : S) (key : list byte)
  (h : nat) (node : BNode) :
  misses (get tree) s key h node ->
  forall fuel, (h <= fuel)%nat ->
  treeDelete nodeReplace2Kid fuel tree node key s = Ok (mkBNode Nil, s).
Proof.
  induction 1 as [h node idx k Hidx Hbt Hk Hne
                 |h node idx kptr knode Hidx Hbt Hptr Hget Hm IH];
    intros [|fuel] Hfuel; try lia; simpl.
  - rewrite Hidx, Hbt. simpl.
    rewrite Hk. simpl. rewrite Hne. reflexivity.
  - rewrite Hidx, Hbt. simpl.
    unfold nodeDelete. rewrite Hptr. simpl. rewrite Hget. simpl.
    rewrite IH by lia. simpl. reflexivity.
Qed.

Lemma Delete_miss (tree : BTree S) (s : S) (key : list byte)
  (h fuel : nat) :
  length key ≠ 0%nat ->
  Z.of_nat (length key) <= BTREE_MAX_KEY_SIZE ->
  absent (get tree) s key (root tree) h ->
  (h <= fuel)%nat ->
  Delete nodeReplace2Kid fuel tree key s = Ok (false, tree, s).
Proof.
  intros Hne Hle Habs Hfuel. unfold Delete.
  rewrite bool_decide_false by assumption.
  rewrite bool_decide_false by lia.
  destruct Habs as [Hroot|(node & Hget & Hm)].
  - rewrite bool_decide_true by assumption. reflexivity.
  - case_bool_decide; [reflexivity|].
    rewrite Hget. simpl.
    rewrite (treeDelete_miss tree s key h node Hm fuel Hfuel). simpl.
    reflexivity.
Qed.

(** C10 (confirmed).  For a non-empty key of at most 1000 bytes that is
    not present in the tree, [Delete] returns false, with the root of the
    tree and the state behind the callbacks as they were; the same call
    returns the same when the [new] and [del] callbacks of the tree are
    replaced by callbacks that panic when they are invoked: the walk
    invokes neither. *)
Theorem Delete_miss_frame (tree : BTree S) (s : S) (key : list byte)
  (h fuel : nat) :
  length key ≠ 0%nat ->
  Z.of_nat (length key) <= BTREE_MAX_KEY_SIZE ->
  absent (get tree) s key (root tree) h ->
  (h <= fuel)%nat ->
  Delete nodeReplace2Kid fuel tree key s = Ok (false, tree, s) /\
  let guarded :=
    mkBTree (root tree) (get tree)
      (fun _ _ => Panic "new invoked") (fun _ _ => Panic "del invoked") in
  Delete nodeReplace2Kid fuel guarded key s = Ok (false, guarded, s).
Proof.
  intros Hne Hle Habs Hfuel. split.
  - eapply Delete_miss; eauto.
  - intros guarded. eapply Delete_miss; eauto.
Qed.
End DeleteMiss.

(** [KeyValue.Del] of an absent key answers false and runs the commit. *)
Lemma KV_Del_miss_commits
  (nodeReplace2Kid : BNode -> BNode -> Z -> Z -> list byte -> result BNode)
  (db : KeyValue) (sys : syscalls) (key : list byte) (h fuel : nat) :
  length key ≠ 0%nat ->
  Z.of_nat (length key) <= BTREE_MAX_KEY_SIZE ->
  absent pageGet db key (tree_root db) h ->
  (h <= fuel)%nat ->
  KV_Del nodeReplace2Kid fuel sys key db
  = ('(db', err) ← flushPages fuel sys db; Ok (false, db', err)).
Proof.
  intros Hne Hle Habs Hfuel. unfold KV_Del.
  rewrite (Delete_miss nodeReplace2Kid (db_tree fuel db) db key h fuel);
    auto.
  simpl. destruct db; reflexivity.
Qed.

(** The frame of a miss in the tree of two levels [two_level]: the key b
    is looked for below the first child and is not there. *)
Lemma Delete_miss_frame_witness :
  absent container_get two_level (str "b") 7 2 /\
  Delete no_nodeReplace2Kid 2 (container_tree 7) (str "b") two_level
  = Ok (false, container_tree 7, two_level).
Proof.
  assert (Habs : absent container_get two_level (str "b") 7 2).
  { right. exists inner2. split; [reflexivity|].
    eapply (misses_node _ _ _ 1 inner2 0 10 leaf_a1);
      [vm_compute; reflexivity ..|].
    eapply (misses_leaf _ _ _ 0 leaf_a1 1 (str "a")); vm_compute; reflexivity. }
  split; [exact Habs|].
  refine (proj1 (Delete_miss_frame no_nodeReplace2Kid (container_tree 7)
                   two_level (str "b") 2 2 _ _ Habs _)).
  - vm_compute. discriminate.
  - vm_compute. discriminate.
  - apply le_n.
Defined.

(** ** The dispatch of pageGet *)

Lemma pages_of_nonneg (chunks : list (list byte)) : 0 <= pages_of chunks.
Proof.
  induction chunks as [|c cs IH]; simpl; [lia|].
  assert (0 <= Z.of_nat (length c) / BTREE_PAGE_SIZE)
    by (apply Z.div_pos; unfold BTREE_PAGE_SIZE; lia).
  lia.
Qed.

Lemma pages_of_app (l1 l2 : list (list byte)) :
  pages_of (l1 ++ l2) = pages_of l1 + pages_of l2.
Proof. induction l1 as [|c cs IH]; simpl; lia. Qed.

Lemma mapped_bytes_app (l1 l2 : list (list byte)) :
  mapped_bytes (l1 ++ l2) = mapped_bytes l1 + mapped_bytes l2.
Proof. induction l1 as [|c cs IH]; simpl; lia. Qed.

Lemma mapped_bytes_nonneg (chunks : list (list byte)) :
  0 <= mapped_bytes chunks.
Proof. induction chunks as [|c cs IH]; simpl; lia. Qed.

Lemma pages_le_bytes (chunks : list (list byte)) :
  pages_of chunks <= mapped_bytes chunks.
Proof.
  induction chunks as [|c cs IH]; simpl; [lia|].
  assert (Z.of_nat (length c) / BTREE_PAGE_SIZE <= Z.of_nat (length c)).
  { apply Z.div_le_upper_bound; unfold BTREE_PAGE_SIZE; lia. }
  lia.
Qed.

Lemma w64_small (a : Z) : 0 <= a < 2 ^ 64 -> w64 a = a.
Proof. unfold w64. intros. apply Z.mod_small. lia. Qed.

(** The walk stops at the chunk whose pages cover [ptr], with the offset
    of the page counted from the first page of that chunk. *)
Lemma chunk_walk_covering (pre : list (list byte)) (chunk : list byte)
  (post : list (list byte)) (i : nat) (start ptr : Z) :
  0 <= start ->
  start + pages_of pre + Z.of_nat (length chunk) / BTREE_PAGE_SIZE < 2 ^ 64 ->
  start + pages_of pre <= ptr
    < start + pages_of pre + Z.of_nat (length chunk) / BTREE_PAGE_SIZE ->
  chunk_walk (pre ++ chunk :: post) i start ptr
  = Some ((i + length pre)%nat,
          w64 (BTREE_PAGE_SIZE * (ptr - (start + pages_of pre)))).
Proof.
  revert i start. induction pre as [|c pre IH]; intros i start Hs Hlt Hin;
    simpl in *.
  - rewrite w64_small by lia.
    rewrite bool_decide_true by lia.
    rewrite Nat.add_0_r, Z.add_0_r. reflexivity.
  - assert (0 <= Z.of_nat (length c) / BTREE_PAGE_SIZE)
      by (apply Z.div_pos; unfold BTREE_PAGE_SIZE; lia).
    pose proof (pages_of_nonneg pre).
    assert (0 <= Z.of_nat (length chunk) / BTREE_PAGE_SIZE)
      by (apply Z.div_pos; unfold BTREE_PAGE_SIZE; lia).
    rewrite w64_small by lia.
    rewrite bool_decide_false by lia.
    rewrite IH by lia.
    rewrite Nat.add_succ_comm, Z.add_assoc. reflexivity.
Qed.

(** The view that [pageGetMapped] returns for a page that a chunk covers. *)
Lemma pageGetMapped_covered (db : KeyValue) (ptr : Z)
  (pre : list (list byte)) (chunk : list byte) (post : list (list byte)) :
  covers (mmap_chunks db) ptr pre chunk post ->
  pageGetMapped db ptr
  = Ok (page_view chunk (BTREE_PAGE_SIZE * (ptr - pages_of pre))).
Proof.
  intros (Hchunks & Hbytes & Hin).
  unfold pageGetMapped. rewrite Hchunks in *.
  rewrite mapped_bytes_app in Hbytes. simpl in Hbytes.
  pose proof (pages_of_nonneg pre).
  pose proof (pages_le_bytes pre).
  pose proof (mapped_bytes_nonneg post).
  assert (Hdiv : BTREE_PAGE_SIZE * (Z.of_nat (length chunk) / BTREE_PAGE_SIZE)
                 <= Z.of_nat (length chunk))
    by (apply Z.mul_div_le; unfold BTREE_PAGE_SIZE; lia).
  assert (Hq : Z.of_nat (length chunk) / BTREE_PAGE_SIZE
               <= Z.of_nat (length chunk))
    by (apply Z.div_le_upper_bound; unfold BTREE_PAGE_SIZE; lia).
  assert (Hp : 2 ^ 63 < 2 ^ 64) by reflexivity.
  rewrite (chunk_walk_covering pre chunk post 0 0 ptr) by lia.
  simpl. rewrite list_lookup_middle by reflexivity.
  rewrite Z.add_0_l.
  set (off := BTREE_PAGE_SIZE * (ptr - pages_of pre)).
  assert (Hoff : 0 <= off /\ off + BTREE_PAGE_SIZE <= Z.of_nat (length chunk)).
  { subst off. unfold BTREE_PAGE_SIZE in *.
    remember (Z.of_nat (length chunk) / 4096) as q. lia. }
  assert (HP : BTREE_PAGE_SIZE = 4096) by reflexivity.
  rewrite (w64_small off) by lia.
  rewrite (w64_small (off + BTREE_PAGE_SIZE)) by lia.
  unfold slice_range, cap, full. simpl vis. simpl hid.
  rewrite app_nil_r.
  rewrite bool_decide_true by lia.
  simpl. unfold page_view.
  replace (off + BTREE_PAGE_SIZE - off) with BTREE_PAGE_SIZE by lia.
  reflexivity.
Qed.

(** C9 (corrected).  For every page id: [pageGet] returns the staged bytes
    when the id is in [updates] with bytes that are not nil; it panics when
    the id is in [updates] with nil, the mark of a deallocated page; and
    when the id is not in [updates] it returns the view of
    [BTREE_PAGE_SIZE] bytes of the mapped chunk that covers the id, at the
    page offset counted from the pages of the chunks before that chunk. *)
Theorem pageGet_dispatch (db : KeyValue) (ptr : Z)
  (pre : list (list byte)) (chunk : list byte) (post : list (list byte)) :
  (updates_lookup db ptr = None ->
   covers (mmap_chunks db) ptr pre chunk post) ->
  pageGet ptr db
  = match updates_lookup db ptr with
    | Some page =>
        if is_nil page then Panic "pageGet: page is nil"
        else Ok (mkBNode page)
    | None =>
        Ok (page_view chunk (BTREE_PAGE_SIZE * (ptr - pages_of pre)))
    end.
Proof.
  intros Hcov. unfold pageGet.
  destruct (updates_lookup db ptr) as [page|]; [reflexivity|].
  apply (pageGetMapped_covered db ptr pre chunk post). auto.
Qed.

(** The dispatch at page 3 of [two_chunks], which the second chunk covers
    and which is not staged. *)
Lemma pageGet_dispatch_witness :
  covers (mmap_chunks two_chunks) 3 [zeros (2 * BTREE_PAGE_SIZE)]
    (zeros BTREE_PAGE_SIZE ++ vis (data leaf_a1)) [] /\
  pageGet 3 two_chunks = Ok (mkBNode (Sl (vis (data leaf_a1)) [])).
Proof.
  assert (Hcov : covers (mmap_chunks two_chunks) 3
                   [zeros (2 * BTREE_PAGE_SIZE)]
                   (zeros BTREE_PAGE_SIZE ++ vis (data leaf_a1)) []).
  { split; [reflexivity|]. split; [vm_compute; reflexivity|].
    vm_compute. split; [discriminate|reflexivity]. }
  split; [exact Hcov|].
  rewrite (pageGet_dispatch two_chunks 3 [zeros (2 * BTREE_PAGE_SIZE)]
             (zeros BTREE_PAGE_SIZE ++ vis (data leaf_a1)) []
             (fun _ => Hcov)).
  vm_compute. reflexivity.
Defined.

(** The dispatch as the specification words it fails for a page that
    [pageDel] has marked: [freed_store] holds page 1 in [updates] with nil
    bytes and maps it as well; [pageGet] panics where the mapped view is
    claimed. *)
Lemma pageGet_nil_entry_counterexample :
  updates_lookup freed_store 1 = Some Nil /\
  is_ok (pageGetMapped freed_store 1) = true /\
  pageGet 1 freed_store = Panic "pageGet: page is nil" /\
  ~ pageGet_as_specified freed_store 1.
Proof.
  split; [vm_compute; reflexivity|].
  split; [vm_compute; reflexivity|].
  split; [vm_compute; reflexivity|].
  unfold pageGet_as_specified.
  replace (updates_lookup freed_store 1) with (Some Nil)
    by (vm_compute; reflexivity).
  rewrite bool_decide_false by (vm_compute; discriminate).
  intros H.
  assert (Hok : is_ok (pageGet 1 freed_store) = true).
  { rewrite H. vm_compute. reflexivity. }
  vm_compute in Hok. discriminate.
Qed.
